(** * primus-cluster: the cluster relay of [lib/primus-cluster.js]

    A shallow embedding of the [PrimusCluster] object: the node state it
    keeps ([silent], [id], [channel]), the host methods it replaces, and
    every call it makes to its collaborators (encoder, decoder, redis
    clients, the rooms API), recorded in a trace.  JavaScript exceptions
    are explicit results. *)

From Stdlib Require Import Floats.SpecFloat.
From stdpp Require Import base strings list gmap.

Set Warnings "-register-all".
Open Scope string_scope.
Open Scope list_scope.

(** ** JavaScript values *)

(** The data that travels in a cluster message.  A number is an IEEE-754
    double, given by sign, mantissa and exponent; an object keeps its
    fields in insertion order, with distinct keys. *)
Inductive value : Type :=
  | VUndef
  | VNull
  | VBool (b : bool)
  | VNum (n : spec_float)
  | VStr (s : string)
  | VArr (items : list value)
  | VObj (fields : list (string * value)).

(** What a [throw] carries: the engine's own errors, or a value thrown by
    host code. *)
Inductive exn : Type :=
  | TypeError
  | RangeError
  | Thrown (e : value).

Inductive result (A : Type) : Type :=
  | Ok (a : A)
  | Throw (e : exn).
Arguments Ok {A} a.
Arguments Throw {A} e.

Module Js.

(** ToBoolean. *)
Definition truthy (v : value) : bool :=
  match v with
  | VUndef | VNull => false
  | VBool b => b
  | VNum (S754_zero _) | VNum S754_nan => false
  | VNum _ => true
  | VStr s => match s with EmptyString => false | String _ _ => true end
  | VArr _ | VObj _ => true
  end.

(** [v === n] for a number [n]: false for every other type, IEEE
    equality on numbers (NaN differs from itself, the two zeros are
    equal). *)
Definition strict_equals_number (v : value) (n : spec_float) : bool :=
  match v with
  | VNum m => SFeqb m n
  | _ => false
  end.

Fixpoint assoc (k : string) (fields : list (string * value)) : value :=
  match fields with
  | [] => VUndef
  | (k', v) :: rest => if String.eqb k k' then v else assoc k rest
  end.

Definition has_field (k : string) (fields : list (string * value)) : bool :=
  existsb (fun kv => String.eqb k (fst kv)) fields.

(** [v.k] for the field names the source reads ([type], [id], [opts],
    [data], [rooms], [to], [except], [method]): none of them names a
    built-in property, so arrays, strings, numbers and booleans answer
    [undefined]; reading a field of [undefined] or [null] throws. *)
Definition prop (k : string) (v : value) : result value :=
  match v with
  | VUndef | VNull => Throw TypeError
  | VObj fields => Ok (assoc k fields)
  | _ => Ok VUndef
  end.

Section ToString.
(** Number::toString of the engine, taken as given. *)
Variable number_to_string : spec_float -> string.

(** ToString, as [+] with a string operand and a computed property key
    apply it.  [None] stands for the TypeError of an object that cannot
    be converted: decoded data holds no functions, so an own [toString]
    field hides the inherited method. *)
Fixpoint to_string (v : value) : option string :=
  match v with
  | VUndef => Some "undefined"
  | VNull => Some "null"
  | VBool true => Some "true"
  | VBool false => Some "false"
  | VNum n => Some (number_to_string n)
  | VStr s => Some s
  | VArr items =>
      (fix join (l : list value) : option string :=
         match l with
         | [] => Some EmptyString
         | x :: rest =>
             let elem :=
               match x with
               | VUndef | VNull => Some EmptyString
               | _ => to_string x
               end in
             match elem, rest with
             | None, _ => None
             | Some s, [] => Some s
             | Some s, _ :: _ =>
                 match join rest with
                 | Some t => Some (s +:+ "," +:+ t)
                 | None => None
                 end
             end
         end) items
  | VObj fields =>
      if has_field "toString" fields then None else Some "[object Object]"
  end.
End ToString.

End Js.


(** ** Collaborators *)

(** A function stored in a slot of the host object: one of the host's own,
    or the replacement that [wrapPrimusMethods] installs, a closure over
    the method name. *)
Inductive fn : Type :=
  | Native (name : string)
  | Wrapper (method : string).

(** What a call into host code does before it comes back: it may call the
    node's [publish] (the rooms adapter is constructed with it), and it
    returns or throws. *)
Record behaviour : Type := {
  publishes : list (value * value * value);
  raises : option value
}.

Definition returns : behaviour := {| publishes := []; raises := None |}.
Definition throws (e : value) : behaviour := {| publishes := []; raises := Some e |}.

(** The host framework and the libraries around the node.  [encoder] and
    [decoder] give the pair [(err, msg)] their callback is called with,
    once and before they return, as the parsers of the framework do. *)
Record host : Type := {
  number_to_string : spec_float -> string;
  (** lodash on a collection that is not an array (characters of a string,
      values of an object): the elements [_.each] visits and [_.toArray]
      returns. *)
  non_array_elements : value -> list value;
  encoder : value -> value * string;
  decoder : string -> value * value;
  (** a host function, by name, applied to arguments *)
  native : string -> list value -> behaviour;
  (** [primus.room(room).to(to).except(except)] *)
  room_select : value -> value -> value -> behaviour;
  (** [rooms[method].apply(rooms, args)] on the selection above *)
  room_apply : value -> value -> value -> string -> list value -> behaviour;
  (** how many nested calls the engine's stack still allows when a host
      method is entered; beyond it the engine throws a RangeError *)
  call_depth : nat
}.

(** Calls that leave the node, in the order they are made. *)
Inductive event : Type :=
  | EvEncode (message : value)
  | EvDecode (payload : string)
  | EvPublish (channel : string) (payload : string)
  | EvSubscribe (channel : string)
  | EvOnMessage
  | EvEmitError (err : value)
  | EvNative (name : string) (args : list value)
  | EvRoomSelect (room to except : value)
  | EvRoomApply (room : value) (method : string) (args : list value)
  | EvQuit (client : string).

(** ** State *)

Record state : Type := {
  slots : gmap string fn;        (* function-valued properties of [primus] *)
  error_listeners : nat;         (* [primus.listeners('error').length] *)
  channel : string;
  silent : bool;
  id : spec_float;
  message_listeners : nat;       (* listeners of ['message'] on the sub client *)
  trace : list event
}.

Definition set_slots (f : gmap string fn -> gmap string fn) (st : state) : state :=
  {| slots := f (slots st); error_listeners := error_listeners st;
     channel := channel st; silent := silent st; id := id st;
     message_listeners := message_listeners st; trace := trace st |}.

Definition set_silent (b : bool) (st : state) : state :=
  {| slots := slots st; error_listeners := error_listeners st;
     channel := channel st; silent := b; id := id st;
     message_listeners := message_listeners st; trace := trace st |}.

Definition add_message_listener (st : state) : state :=
  {| slots := slots st; error_listeners := error_listeners st;
     channel := channel st; silent := silent st; id := id st;
     message_listeners := S (message_listeners st); trace := trace st |}.

Definition record (evs : list event) (st : state) : state :=
  {| slots := slots st; error_listeners := error_listeners st;
     channel := channel st; silent := silent st; id := id st;
     message_listeners := message_listeners st; trace := trace st ++ evs |}.

(** ** Computations: state and exceptions *)

Definition M (A : Type) : Type := state -> result A * state.

Definition ret {A} (a : A) : M A := fun st => (Ok a, st).

Definition throw {A} (e : exn) : M A := fun st => (Throw e, st).

Definition bind {A B} (m : M A) (k : A -> M B) : M B :=
  fun st =>
    match m st with
    | (Ok a, st') => k a st'
    | (Throw e, st') => (Throw e, st')
    end.

Definition update (f : state -> state) : M unit := fun st => (Ok tt, f st).

Definition reads {A} (f : state -> A) : M A := fun st => (Ok (f st), st).

Definition lift {A} (r : result A) : M A := fun st => (r, st).

Definition log (e : event) : M unit := update (record [e]).

Declare Scope js_scope.
Delimit Scope js_scope with js.
Notation "'let*' x ':=' m 'in' k" := (bind m (fun x => k))
  (at level 10, x name, m at level 100, k at level 200) : js_scope.
Notation "m '>>' k" := (bind m (fun _ => k))
  (at level 90, right associativity) : js_scope.
Open Scope js_scope.

Fixpoint for_each {A} (f : A -> M unit) (l : list A) : M unit :=
  match l with
  | [] => ret tt
  | x :: rest => f x >> for_each f rest
  end.

(** ** The cluster node *)

(** The methods of a [PrimusCluster] object whose name ends in
    [MessageDispatcher]; no other property of the object or of its
    prototype chain has such a name. *)
Inductive dispatcher : Type :=
  | RoomMessageDispatcher
  | PrimusMessageDispatcher
  | InitializeMessageDispatcher.

Definition own_method (key : string) : option dispatcher :=
  if String.eqb key "roomMessageDispatcher" then Some RoomMessageDispatcher
  else if String.eqb key "primusMessageDispatcher" then Some PrimusMessageDispatcher
  else if String.eqb key "initializeMessageDispatcher" then Some InitializeMessageDispatcher
  else None.

Section Cluster.
Variable H : host.

Definition js_to_string (v : value) : M string :=
  match Js.to_string (number_to_string H) v with
  | Some s => ret s
  | None => throw TypeError
  end.

(** [_.toArray], and the elements [_.each] visits in order. *)
Definition toArray (v : value) : list value :=
  match v with
  | VArr items => items
  | _ => non_array_elements H v
  end.

(** [primus.listeners('error').length && primus.emit('error', err)] *)
Definition emit_if_listened (err : value) : M unit :=
  let* n := reads error_listeners in
  match n with
  | 0 => ret tt
  | S _ => log (EvEmitError err)
  end.

(** The object literal that [publish] encodes. *)
Definition cluster_message (self : spec_float) (data type opts : value) : value :=
  VObj [("id", VNum self); ("data", data); ("type", type); ("opts", opts)].

Definition publish (data type opts : value) : M unit :=
  let opts := if Js.truthy opts then opts else VObj [] in
  let* quiet := reads silent in
  if quiet then ret tt
  else
    let* self := reads id in
    let message := cluster_message self data type opts in
    log (EvEncode message) >>
    let '(err, msg) := encoder H message in
    if Js.truthy err then emit_if_listened err
    else
      let* c := reads channel in
      log (EvPublish c msg).

(** A call into host code runs to its end: the calls it makes to
    [publish], then its return or throw. *)
Definition host_call (b : behaviour) : M unit :=
  for_each (fun p => publish p.1.1 p.1.2 p.2) (publishes b) >>
  match raises b with
  | Some e => throw (Thrown e)
  | None => ret tt
  end.

(** Applying a function held in a slot of [primus].  The replacement
    reads [primus['__original' + method]] when it is called. *)
Fixpoint call (depth : nat) (f : fn) (args : list value) : M unit :=
  match depth with
  | 0 => throw RangeError
  | S depth' =>
      match f with
      | Native name => log (EvNative name args) >> host_call (native H name args)
      | Wrapper method =>
          publish (VArr args) (VStr "primus") (VObj [("method", VStr method)]) >>
          let* original := reads (fun st => slots st !! ("__original" +:+ method)) in
          match original with
          | None => throw TypeError
          | Some g => call depth' g args
          end
      end
  end.

Definition wrapMethod (method : string) : M unit :=
  let* current := reads (fun st => slots st !! method) in
  match current with
  | None => ret tt
  | Some f =>
      update (set_slots (fun m =>
        <[method := Wrapper method]> (<["__original" +:+ method := f]> m)))
  end.

Definition wrapPrimusMethods : M unit :=
  for_each wrapMethod ["write"; "send"].

Definition initializeMessageDispatcher : M unit :=
  let* c := reads channel in
  log (EvSubscribe c) >>
  log EvOnMessage >>
  update add_message_listener.

(** The callback that [roomMessageDispatcher] hands to [_.each]. *)
Definition each_room (msg opts room : value) : M unit :=
  let* to := lift (Js.prop "to" opts) in
  let* except := lift (Js.prop "except" opts) in
  log (EvRoomSelect room to except) >>
  host_call (room_select H room to except) >>
  let* method := lift (Js.prop "method" opts) in
  let* key := js_to_string method in
  let* data := lift (Js.prop "data" msg) in
  log (EvRoomApply room key (toArray data)) >>
  host_call (room_apply H room to except key (toArray data)).

Definition roomMessageDispatcher (msg : value) : M unit :=
  let* opts := lift (Js.prop "opts" msg) in
  let* rooms := lift (Js.prop "rooms" opts) in
  for_each (each_room msg opts) (toArray rooms).

Definition primusMessageDispatcher (msg : value) : M unit :=
  let* opts := lift (Js.prop "opts" msg) in
  let* method := lift (Js.prop "method" opts) in
  let* name := js_to_string method in
  let* original := reads (fun st => slots st !! ("__original" +:+ name)) in
  match original with
  | None => throw TypeError
  | Some f =>
      let* data := lift (Js.prop "data" msg) in
      call (call_depth H) f (toArray data)
  end.

Definition run_dispatcher (d : dispatcher) (msg : value) : M unit :=
  match d with
  | RoomMessageDispatcher => roomMessageDispatcher msg
  | PrimusMessageDispatcher => primusMessageDispatcher msg
  | InitializeMessageDispatcher => initializeMessageDispatcher
  end.

Definition callDispatcher (msg : value) : M unit :=
  update (set_silent true) >>
  (let* type := lift (Js.prop "type" msg) in
   let* name := js_to_string type in
   match own_method (name +:+ "MessageDispatcher") with
   | None => throw TypeError
   | Some d => run_dispatcher d msg
   end) >>
  update (set_silent false).

Definition dispatchMessage (payload : string) : M unit :=
  log (EvDecode payload) >>
  let '(err, msg) := decoder H payload in
  if Js.truthy err then emit_if_listened err
  else
    let* type := lift (Js.prop "type" msg) in
    if negb (Js.truthy type) then ret tt
    else
      let* sender := lift (Js.prop "id" msg) in
      let* self := reads id in
      if Js.strict_equals_number sender self then ret tt
      else callDispatcher msg.

(** The listener that [initializeMessageDispatcher] registers. *)
Definition on_message (channel message : string) : M unit :=
  dispatchMessage message.

(** The sub client emitting ['message']: every registered listener runs,
    in turn; a throwing listener ends the emission. *)
Definition emit_message (channel message : string) : M unit :=
  let* n := reads message_listeners in
  for_each (fun _ : unit => on_message channel message) (replicate n tt).

Definition close : M unit :=
  for_each (fun client => log (EvQuit client)) ["pub"; "sub"; "storage"].

(** The constructor, for the state modelled here: the defaults of the
    options, the fresh flag and identifier, the wrapping and the
    subscription.  [random] is the value [Math.random()] returned. *)
Definition PrimusCluster (primus : gmap string fn) (listeners : nat)
    (channel_option : option string) (random : spec_float) : result unit * state :=
  (wrapPrimusMethods >> initializeMessageDispatcher)
    {| slots := primus; error_listeners := listeners;
       channel := default "primus" channel_option;
       silent := false; id := random;
       message_listeners := 0; trace := [] |}.

End Cluster.

(** ** The redis clients *)

Module Clients.

(** The [redis] option of the cluster: a function that makes a client,
    or settings handed to [require('redis').createClient]; an absent
    option counts as empty settings.  The field tells how the creation
    that follows [n] earlier ones ends: with a client, or with the error
    thrown. *)
Inductive options : Type :=
  | Factory (make : nat -> option value)
  | Settings (create : nat -> option value).

Definition attempt (o : options) (n : nat) : option value :=
  match o with
  | Factory make => make n
  | Settings create => create n
  end.

(** What [initializeClients] does with a client it obtained. *)
Inductive step : Type :=
  | Created (name : string)
  | ForwardsErrors (name : string).

(** The keys of [this.clients], in the order they were set, and the
    steps taken. *)
Record setup : Type := {
  clients : list string;
  steps : list step
}.

(** [new Error('You must add redis as dependency.')] *)
Definition missing_dependency : exn :=
  Thrown (VObj [("message", VStr "You must add redis as dependency.")]).

Definition createClient (o : options) (n : nat) : result unit :=
  match o with
  | Factory make =>
      match make n with
      | None => Ok tt
      | Some e => Throw (Thrown e)
      end
  | Settings create =>
      match create n with
      | None => Ok tt
      | Some _ => Throw missing_dependency
      end
  end.

(** The [forEach] over the three names; [n] counts the clients created
    so far. *)
Fixpoint each_name (o : options) (n : nat) (names : list string) (s : setup)
    : result unit * setup :=
  match names with
  | [] => (Ok tt, s)
  | name :: rest =>
      match createClient o n with
      | Throw e => (Throw e, s)
      | Ok _ =>
          each_name o (S n) rest
            {| clients := clients s ++ [name];
               steps := steps s ++ [Created name; ForwardsErrors name] |}
      end
  end.

Definition names : list string := ["pub"; "sub"; "storage"].

Definition initializeClients (o : options) : result unit * setup :=
  each_name o 0 names {| clients := []; steps := [] |}.

End Clients.

(** ** Observations on a run *)

(** The events that put something on the channel. *)
Definition outbound (e : event) : bool :=
  match e with
  | EvEncode _ | EvPublish _ _ => true
  | _ => false
  end.

(** The rooms whose operation was invoked, in order. *)
Definition applied_rooms (t : list event) : list value :=
  omap (fun e => match e with EvRoomApply room _ _ => Some room | _ => None end) t.

(** The result a call into host code ends with. *)
Definition outcome (b : behaviour) : result unit :=
  match raises b with
  | Some e => Throw (Thrown e)
  | None => Ok tt
  end.

(** The rooms that were selected, in order. *)
Definition selected_rooms (t : list event) : list value :=
  omap (fun e => match e with EvRoomSelect room _ _ => Some room | _ => None end) t.

(** The events of [publish]: encoding, channel write, error emission. *)
Definition relay (e : event) : bool :=
  match e with
  | EvEncode _ | EvPublish _ _ | EvEmitError _ => true
  | _ => false
  end.

(** How the processing of one room ends, by what the host does: the
    selection may throw; the method name may not convert to a property
    key ([key] is [None]), a TypeError; the operation may throw. *)
Definition room_ending (H : host) (to except : value) (key : option string)
    (args : list value) (room : value) : result unit :=
  match raises (room_select H room to except) with
  | Some e => Throw (Thrown e)
  | None =>
      match key with
      | None => Throw TypeError
      | Some k => outcome (room_apply H room to except k args)
      end
  end.

(** Whether the processing of a room gets as far as its operation. *)
Definition operation_reached (H : host) (to except : value) (key : option string)
    (room : value) : bool :=
  match raises (room_select H room to except), key with
  | None, Some _ => true
  | _, _ => false
  end.

(** A computation is [quiet] when it leaves the flag as it found it and,
    run with the flag set, puts nothing on the channel. *)
Definition quiet {A} (m : M A) : Prop :=
  forall st,
    silent (m st).2 = silent st /\
    (silent st = true ->
     List.filter outbound (trace (m st).2) = List.filter outbound (trace st)).

(** What [emit_if_listened] hands to the host's error listeners. *)
Definition reported (listeners : nat) (err : value) : list event :=
  match listeners with
  | 0 => []
  | S _ => [EvEmitError err]
  end.

(** What wrapping one method does to the slots of the host. *)
Definition wrapped (method : string) (m : gmap string fn) : gmap string fn :=
  match m !! method with
  | Some f => <[method := Wrapper method]> (<["__original" +:+ method := f]> m)
  | None => m
  end.

(** The reading of the rooms handler under which every room named by a
    message has the operation invoked on it, whatever the others do. *)
Definition every_named_room_is_served (H : host) (msg : value) (st : state) : Prop :=
  forall opts rooms room,
    Js.prop "opts" msg = Ok opts ->
    Js.prop "rooms" opts = Ok (VArr rooms) ->
    room ∈ rooms ->
    room ∈ applied_rooms (trace (roomMessageDispatcher H msg st).2).

(** The host functions that were run, with their arguments, in order. *)
Definition natives (t : list event) : list (string * list value) :=
  omap (fun e => match e with EvNative name args => Some (name, args) | _ => None end) t.

(** A computation is [mute] when it puts nothing on the channel, in
    whatever state it starts. *)
Definition mute {A} (m : M A) : Prop :=
  forall st,
    List.filter outbound (trace (m st).2) = List.filter outbound (trace st).

(** ** Sample inputs *)

Module Sample.

Definition half : spec_float := S754_finite false 4503599627370496 (-53).
Definition quarter : spec_float := S754_finite false 4503599627370496 (-54).
Definition forty_two : spec_float := S754_finite false 5910974510923776 (-47).

Definition message (sender : value) (type : value) (data : value)
    (opts : list (string * value)) : value :=
  VObj [("id", sender); ("data", data); ("type", type); ("opts", VObj opts)].

Definition direct_write : value :=
  message (VNum quarter) (VStr "primus")
    (VArr [VNum forty_two; VStr "hello"]) [("method", VStr "write")].

Definition lobby_vip : value :=
  message (VNum quarter) (VStr "room") (VArr [VStr "news"])
    [("rooms", VArr [VStr "lobby"; VStr "vip"]); ("method", VStr "emit")].

Definition table (payload : string) : value * value :=
  if String.eqb payload "direct" then (VUndef, direct_write)
  else if String.eqb payload "rooms" then (VUndef, lobby_vip)
  else if String.eqb payload "echo" then
    (VUndef, message (VNum half) (VStr "primus") (VArr []) [("method", VStr "write")])
  else if String.eqb payload "anonymous" then
    (VUndef, VObj [("type", VStr "primus"); ("data", VArr [VStr "hi"]);
                   ("opts", VObj [("method", VStr "write")])])
  else if String.eqb payload "untyped" then
    (VUndef, VObj [("id", VNum quarter); ("data", VArr [])])
  else if String.eqb payload "foreign" then
    (VUndef, message (VNum quarter) (VStr "presence") (VArr []) [])
  else if String.eqb payload "initialize" then
    (VUndef, message (VNum quarter) (VStr "initialize") (VArr []) [])
  else (VStr "SyntaxError", VUndef).

(** A host whose encoder fails on [undefined] data, whose [write] works,
    and whose rooms all accept [emit]. *)
Definition sound : host :=
  {| number_to_string := fun _ => "0.25";
     non_array_elements := fun v =>
       match v with VObj fields => map snd fields | _ => [] end;
     encoder := fun m =>
       match Js.assoc "data" match m with VObj f => f | _ => [] end with
       | VUndef => (VStr "cannot encode", EmptyString)
       | _ => (VUndef, "wire")
       end;
     decoder := table;
     native := fun _ _ => returns;
     room_select := fun _ _ _ => returns;
     room_apply := fun _ _ _ _ _ => returns;
     call_depth := 8 |}.

(** The same host, except that [emit] on the lobby throws. *)
Definition lobby_fails : host :=
  {| number_to_string := number_to_string sound;
     non_array_elements := non_array_elements sound;
     encoder := encoder sound;
     decoder := decoder sound;
     native := native sound;
     room_select := room_select sound;
     room_apply := fun room _ _ _ _ =>
       match room with
       | VStr "lobby" => throws (VStr "lobby is closed")
       | _ => returns
       end;
     call_depth := call_depth sound |}.

(** The same host, except that the lobby cannot even be selected. *)
Definition lobby_missing : host :=
  {| number_to_string := number_to_string sound;
     non_array_elements := non_array_elements sound;
     encoder := encoder sound;
     decoder := decoder sound;
     native := native sound;
     room_select := fun room _ _ =>
       match room with
       | VStr "lobby" => throws (VStr "no such room")
       | _ => returns
       end;
     room_apply := room_apply sound;
     call_depth := call_depth sound |}.

(** The same host, except that its [write] throws. *)
Definition write_fails : host :=
  {| number_to_string := number_to_string sound;
     non_array_elements := non_array_elements sound;
     encoder := encoder sound;
     decoder := decoder sound;
     native := fun name _ =>
       if String.eqb name "write" then throws (VStr "socket closed") else returns;
     room_select := room_select sound;
     room_apply := room_apply sound;
     call_depth := call_depth sound |}.

(** A host object that has [write] but no [send], before and after a
    node is constructed on it. *)
Definition before_construction : state :=
  {| slots := {["write" := Native "write"]}; error_listeners := 0;
     channel := "primus"; silent := false; id := half;
     message_listeners := 0; trace := [] |}.

Definition node (listeners : nat) : state :=
  (PrimusCluster {["write" := Native "write"]} listeners None half).2.

(** A host whose decoder undoes its encoder on the one message that a
    [write("hi")] of the node with identifier [half] puts on the wire. *)
Definition hi_message : value :=
  VObj [("id", VNum half); ("data", VArr [VStr "hi"]); ("type", VStr "primus");
        ("opts", VObj [("method", VStr "write")])].

Definition paired : host :=
  {| number_to_string := number_to_string sound;
     non_array_elements := non_array_elements sound;
     encoder := fun _ => (VUndef, "hi on the wire");
     decoder := fun payload =>
       if String.eqb payload "hi on the wire" then (VUndef, hi_message)
       else (VStr "SyntaxError", VUndef);
     native := native sound;
     room_select := room_select sound;
     room_apply := room_apply sound;
     call_depth := call_depth sound |}.

(** A second node, on a host of the same kind, with another identifier. *)
Definition other_node : state :=
  (PrimusCluster {["write" := Native "write"]} 0 None quarter).2.

(** A host whose decoder hands over [null] without an error. *)
Definition decodes_null : host :=
  {| number_to_string := number_to_string sound;
     non_array_elements := non_array_elements sound;
     encoder := encoder sound;
     decoder := fun _ => (VUndef, VNull);
     native := native sound;
     room_select := room_select sound;
     room_apply := room_apply sound;
     call_depth := call_depth sound |}.

(** Messages that lack what their handler reads. *)
Definition without_opts : value :=
  VObj [("id", VNum quarter); ("type", VStr "room"); ("data", VArr [])].

Definition to_send : value :=
  message (VNum quarter) (VStr "primus") (VArr [VStr "hi"]) [("method", VStr "send")].

Definition no_rooms : value :=
  message (VNum quarter) (VStr "room") (VArr [VStr "news"])
    [("rooms", VArr []); ("method", VStr "emit")].

(** A redis module whose second [createClient] fails. *)
Definition second_fails : Clients.options :=
  Clients.Settings (fun n =>
    match n with 1 => Some (VStr "ECONNREFUSED") | _ => None end).

Definition factory_fails : Clients.options :=
  Clients.Factory (fun n =>
    match n with 1 => Some (VStr "ECONNREFUSED") | _ => None end).

End Sample.

(** ** Reasoning about runs *)

Arguments record : simpl never.

Ltac run := cbv [bind ret throw reads update lift log] in *.

Lemma bind_ok {A B} (m : M A) (k : A -> M B) st a st' :
  m st = (Ok a, st') -> bind m k st = k a st'.
Proof. intros E. unfold bind. now rewrite E. Qed.

Lemma bind_assoc {A B C} (m : M A) (k : A -> M B) (k' : B -> M C) st :
  bind (bind m k) k' st = bind m (fun a => bind (k a) k') st.
Proof. unfold bind. now destruct (m st) as [[a | e] st1]. Qed.

Lemma record_nil (st : state) : record [] st = st.
Proof. destruct st; unfold record; simpl. now rewrite app_nil_r. Qed.

Lemma record_record (evs evs' : list event) (st : state) :
  record evs' (record evs st) = record (evs ++ evs') st.
Proof. unfold record; simpl. now rewrite app_assoc. Qed.

Create HintDb quiet.

Lemma quiet_ret {A} (a : A) : quiet (ret a).
Proof. now intros st. Qed.

Lemma quiet_throw {A} (e : exn) : quiet (@throw A e).
Proof. now intros st. Qed.

Lemma quiet_reads {A} (f : state -> A) : quiet (reads f).
Proof. now intros st. Qed.

Lemma quiet_lift {A} (r : result A) : quiet (lift r).
Proof. now intros st. Qed.

Lemma quiet_bind {A B} (m : M A) (k : A -> M B) :
  quiet m -> (forall a, quiet (k a)) -> quiet (bind m k).
Proof.
  intros Hm Hk st. destruct (Hm st) as [Hs Ht].
  unfold bind. destruct (m st) as [[a | e] st1]; simpl in *.
  - destruct (Hk a st1) as [Hs' Ht']. split.
    + congruence.
    + intros Hq. rewrite Ht' by congruence. auto.
  - auto.
Qed.

Lemma quiet_log (e : event) : outbound e = false -> quiet (log e).
Proof.
  intros He st. run. simpl. split; [reflexivity | intros _].
  rewrite List.filter_app. simpl. rewrite He. apply app_nil_r.
Qed.

Lemma quiet_add_message_listener : quiet (update add_message_listener).
Proof. now intros st. Qed.

Lemma quiet_for_each {A} (f : A -> M unit) (l : list A) :
  (forall x, quiet (f x)) -> quiet (for_each f l).
Proof.
  intros Hf. induction l as [| x rest IH]; simpl.
  - apply quiet_ret.
  - apply quiet_bind; auto.
Qed.

#[local] Hint Resolve quiet_ret quiet_throw quiet_reads quiet_lift quiet_log
  quiet_add_message_listener : quiet.

Ltac quiet_steps :=
  repeat first
    [ solve [auto with quiet]
    | apply quiet_bind; [| intros ?]
    | apply quiet_for_each; intros ?
    | match goal with
      | |- quiet (match ?x with _ => _ end) => destruct x
      | |- quiet (if ?x then _ else _) => destruct x
      end ].

Lemma quiet_emit_if_listened (err : value) : quiet (emit_if_listened err).
Proof. unfold emit_if_listened. quiet_steps. Qed.

Section Runs.
Variable H : host.

(** [publish] only ever adds to the trace, and adds nothing when the flag
    is set. *)
Lemma publish_spec (data type opts : value) (st : state) :
  exists evs,
    publish H data type opts st = (Ok tt, record evs st) /\
    applied_rooms evs = [] /\
    (silent st = true -> evs = []).
Proof.
  unfold publish, emit_if_listened. run. destruct (silent st) eqn:Hs.
  - exists []. now rewrite record_nil.
  - destruct (encoder H _) as [err wire].
    destruct (Js.truthy err); [change (error_listeners (record _ st))
      with (error_listeners st); destruct (error_listeners st) |];
      rewrite ?record_record; eexists; repeat split; discriminate.
Qed.

Lemma quiet_publish (data type opts : value) : quiet (publish H data type opts).
Proof.
  intros st. destruct (publish_spec data type opts st) as (evs & -> & _ & Hq).
  simpl. split; [reflexivity | intros Hs]. rewrite (Hq Hs). now rewrite app_nil_r.
Qed.

Lemma host_call_spec (b : behaviour) (st : state) :
  exists evs,
    host_call H b st = (outcome b, record evs st) /\
    applied_rooms evs = [] /\
    (silent st = true -> evs = []).
Proof.
  unfold host_call, outcome. destruct b as [ps r]; simpl.
  revert st. induction ps as [| p ps IH]; intros st; simpl.
  - exists []. rewrite record_nil. run. now destruct r.
  - destruct (publish_spec p.1.1 p.1.2 p.2 st) as (evs1 & E1 & R1 & Q1).
    destruct (IH (record evs1 st)) as (evs2 & E2 & R2 & Q2).
    exists (evs1 ++ evs2). rewrite <- record_record.
    rewrite bind_assoc, (bind_ok _ _ _ _ _ E1).
    split; [exact E2 | split].
    + unfold applied_rooms in *. now rewrite omap_app, R1, R2.
    + intros Hs. rewrite (Q1 Hs), (Q2 Hs); reflexivity.
Qed.

Lemma quiet_host_call (b : behaviour) : quiet (host_call H b).
Proof.
  intros st. destruct (host_call_spec b st) as (evs & -> & _ & Hq).
  simpl. split; [reflexivity | intros Hs]. rewrite (Hq Hs). now rewrite app_nil_r.
Qed.

Hint Resolve quiet_publish quiet_host_call quiet_emit_if_listened : quiet.

Lemma quiet_call (depth : nat) (f : fn) (args : list value) :
  quiet (call H depth f args).
Proof.
  revert f. induction depth as [| depth IH]; intros f; simpl.
  - apply quiet_throw.
  - destruct f; quiet_steps.
Qed.

Lemma quiet_js_to_string (v : value) : quiet (js_to_string H v).
Proof. unfold js_to_string. quiet_steps. Qed.

Hint Resolve quiet_call quiet_js_to_string : quiet.

Lemma quiet_roomMessageDispatcher (msg : value) : quiet (roomMessageDispatcher H msg).
Proof. unfold roomMessageDispatcher, each_room. quiet_steps. Qed.

Lemma quiet_primusMessageDispatcher (msg : value) :
  quiet (primusMessageDispatcher H msg).
Proof. unfold primusMessageDispatcher. quiet_steps. Qed.

Lemma quiet_initializeMessageDispatcher : quiet initializeMessageDispatcher.
Proof. unfold initializeMessageDispatcher. quiet_steps. Qed.

Lemma quiet_run_dispatcher (d : dispatcher) (msg : value) :
  quiet (run_dispatcher H d msg).
Proof.
  destruct d; simpl;
    auto using quiet_roomMessageDispatcher, quiet_primusMessageDispatcher,
      quiet_initializeMessageDispatcher.
Qed.

End Runs.

(** ** Properties *)

Lemma wrapped_other (method k : string) (m : gmap string fn) :
  k <> method -> k <> "__original" +:+ method ->
  wrapped method m !! k = m !! k.
Proof.
  intros H1 H2. unfold wrapped. destruct (m !! method); [| reflexivity].
  now rewrite !lookup_insert_ne by congruence.
Qed.

Lemma wrapped_self (method : string) (f : fn) (m : gmap string fn) :
  m !! method = Some f -> "__original" +:+ method <> method ->
  wrapped method m !! method = Some (Wrapper method) /\
  wrapped method m !! ("__original" +:+ method) = Some f.
Proof.
  intros Hf Hne. unfold wrapped. rewrite Hf. split.
  - apply lookup_insert_eq.
  - rewrite lookup_insert_ne by congruence. apply lookup_insert_eq.
Qed.

Lemma wrapMethod_slots (method : string) (st : state) :
  wrapMethod method st = (Ok tt, set_slots (wrapped method) st).
Proof.
  unfold wrapMethod, wrapped. cbv [bind reads update ret].
  destruct (slots st !! method) eqn:E; unfold set_slots; rewrite E;
    [reflexivity | now destruct st].
Qed.

Lemma wrapPrimusMethods_slots (st : state) :
  wrapPrimusMethods st =
  (Ok tt, set_slots (fun m => wrapped "send" (wrapped "write" m)) st).
Proof.
  unfold wrapPrimusMethods. simpl.
  rewrite (bind_ok _ _ _ _ _ (wrapMethod_slots "write" st)).
  now rewrite (bind_ok _ _ _ _ _ (wrapMethod_slots "send" _)).
Qed.

Section Facts.
Variable H : host.

(** X1: whenever [callDispatcher] returns, [silent] is false afterwards,
    whatever it was before: a replay that returns also releases a guard
    that an earlier, throwing replay had left set. *)
Lemma callDispatcher_return_resets (msg : value) (st st' : state) :
  callDispatcher H msg st = (Ok tt, st') -> silent st' = false.
Proof.
  unfold callDispatcher. unfold bind at 1, update at 1.
  unfold bind at 1. destruct (bind _ _ _) as [[[] | e] st1]; [| discriminate].
  unfold update. now intros [= <-].
Qed.

(** C1 (the code leaves the guard set): when the dispatcher that
    [callDispatcher] invokes throws, the assignment that exits silent mode
    is skipped, so [callDispatcher] ends with [silent] still true. *)
Theorem callDispatcher_throw_keeps_silent (msg : value) (st st' : state) (e : exn) :
  callDispatcher H msg st = (Throw e, st') ->
  silent st' = true.
Proof.
  unfold callDispatcher. unfold bind at 1, update at 1.
  set (body := bind (lift (Js.prop "type" msg)) _).
  assert (Hq : quiet body).
  { subst body. apply quiet_bind; [apply quiet_lift | intros type].
    apply quiet_bind; [apply quiet_js_to_string | intros name].
    destruct (own_method _); [apply quiet_run_dispatcher | apply quiet_throw]. }
  destruct (Hq (set_silent true st)) as [Hs _].
  unfold bind. destruct (body (set_silent true st)) as [[[] | e'] st1].
  - unfold update. discriminate.
  - intros [= _ <-]. exact Hs.
Qed.

(** C2: while [silent] is set, [publish] returns at once: the state is
    the one it was called in, so no message was built, nothing was
    encoded and nothing was written to the channel. *)
Theorem publish_silent_noop (data type opts : value) (st : state) :
  silent st = true ->
  publish H data type opts st = (Ok tt, st).
Proof.
  intros Hs. unfold publish, bind, reads. now rewrite Hs.
Qed.

(** The no-loop property that follows: replaying an inbound message
    encodes nothing and writes nothing to the channel, whatever the host
    code it runs asks the node to publish. *)
Lemma callDispatcher_puts_nothing_on_channel (msg : value) (st : state) :
  List.filter outbound (trace (callDispatcher H msg st).2) =
  List.filter outbound (trace st).
Proof.
  unfold callDispatcher. unfold bind at 1, update at 1.
  set (body := bind (lift (Js.prop "type" msg)) _).
  assert (Hq : quiet body).
  { subst body. apply quiet_bind; [apply quiet_lift | intros type].
    apply quiet_bind; [apply quiet_js_to_string | intros name].
    destruct (own_method _); [apply quiet_run_dispatcher | apply quiet_throw]. }
  destruct (Hq (set_silent true st)) as [_ Ht]. specialize (Ht eq_refl).
  unfold bind. destruct (body (set_silent true st)) as [[[] | e'] st1];
    simpl in *; exact Ht.
Qed.

(** C3: a decoded message whose [id] is strictly equal to the node's own
    is dropped: after the decoding itself the state is untouched, so no
    handler ran and [silent] was never written. *)
Theorem dispatchMessage_drops_own_echo (payload : string) (st : state)
    (err msg sender : value) :
  decoder H payload = (err, msg) ->
  Js.truthy err = false ->
  Js.prop "id" msg = Ok sender ->
  Js.strict_equals_number sender (id st) = true ->
  dispatchMessage H payload st = (Ok tt, record [EvDecode payload] st).
Proof.
  intros Hd He Hi Hs. unfold dispatchMessage. run. rewrite Hd, He.
  destruct msg; simpl in Hi; try discriminate Hi;
    injection Hi as <-; try discriminate Hs.
  simpl. destruct (Js.truthy (Js.assoc "type" fields)); simpl; [| reflexivity].
  change (id (record _ st)) with (id st). now rewrite Hs.
Qed.

Lemma omap_relay {A} (f : event -> option A) (evs : list event) :
  (forall e, relay e = true -> f e = None) ->
  Forall (fun e => relay e = true) evs ->
  omap f evs = [].
Proof.
  intros Hf. induction 1 as [| e evs He _ IH]; [reflexivity |].
  change (e :: evs) with ([e] ++ evs). rewrite omap_app, IH. simpl.
  now rewrite (Hf e He).
Qed.

Lemma publish_relay (data type opts : value) (st : state) :
  exists evs,
    publish H data type opts st = (Ok tt, record evs st) /\
    Forall (fun e => relay e = true) evs.
Proof.
  unfold publish, emit_if_listened. run. destruct (silent st).
  - exists []. rewrite record_nil. split; [reflexivity | constructor].
  - destruct (encoder H _) as [err wire].
    destruct (Js.truthy err); [change (error_listeners (record _ st))
      with (error_listeners st); destruct (error_listeners st) |];
      rewrite ?record_record; eexists; (split; [reflexivity |]);
      repeat constructor.
Qed.

Lemma host_call_relay (b : behaviour) (st : state) :
  exists evs,
    host_call H b st = (outcome b, record evs st) /\
    Forall (fun e => relay e = true) evs.
Proof.
  unfold host_call, outcome. destruct b as [ps r]; simpl.
  revert st. induction ps as [| p ps IH]; intros st; simpl.
  - exists []. rewrite record_nil. run. split; [now destruct r | constructor].
  - destruct (publish_relay p.1.1 p.1.2 p.2 st) as (evs1 & E1 & R1).
    destruct (IH (record evs1 st)) as (evs2 & E2 & R2).
    exists (evs1 ++ evs2). rewrite <- record_record.
    rewrite bind_assoc, (bind_ok _ _ _ _ _ E1).
    split; [exact E2 | now apply Forall_app].
Qed.

(** One pass of the loop over the rooms: the room is selected and, when
    that returns and the method name converts, the operation is applied
    to it once; the pass ends as [room_ending] tells. *)
Lemma each_room_cases (msg opts room to except method data : value) (st : state) :
  Js.prop "to" opts = Ok to ->
  Js.prop "except" opts = Ok except ->
  Js.prop "method" opts = Ok method ->
  Js.prop "data" msg = Ok data ->
  let key := Js.to_string (number_to_string H) method in
  exists evs,
    each_room H msg opts room st =
      (room_ending H to except key (toArray H data) room, record evs st) /\
    selected_rooms evs = [room] /\
    applied_rooms evs =
      if operation_reached H to except key room then [room] else [].
Proof.
  intros Hto Hex Hm Hd key. subst key.
  unfold each_room, js_to_string, room_ending, operation_reached.
  rewrite Hto, Hex, Hm, Hd. cbv [bind lift log update ret throw].
  destruct (host_call_relay (room_select H room to except)
              (record [EvRoomSelect room to except] st)) as (evs1 & E1 & R1).
  rewrite E1. unfold outcome at 1.
  assert (S1 : selected_rooms evs1 = []) by (apply omap_relay; [now intros [] | exact R1]).
  assert (A1 : applied_rooms evs1 = []) by (apply omap_relay; [now intros [] | exact R1]).
  destruct (raises (room_select H room to except)) as [e |].
  { exists ([EvRoomSelect room to except] ++ evs1). rewrite record_record.
    split; [reflexivity |]. unfold selected_rooms, applied_rooms in *.
    rewrite !omap_app, S1, A1. now split. }
  destruct (Js.to_string (number_to_string H) method) as [k |].
  2: { exists ([EvRoomSelect room to except] ++ evs1). rewrite record_record.
       split; [reflexivity |]. unfold selected_rooms, applied_rooms in *.
       rewrite !omap_app, S1, A1. now split. }
  set (args := toArray H data).
  match goal with
  | |- context [host_call H ?b ?s] => destruct (host_call_relay b s) as (evs2 & E2 & R2)
  end.
  assert (S2 : selected_rooms evs2 = []) by (apply omap_relay; [now intros [] | exact R2]).
  assert (A2 : applied_rooms evs2 = []) by (apply omap_relay; [now intros [] | exact R2]).
  exists ([EvRoomSelect room to except] ++ evs1 ++ [EvRoomApply room k args] ++ evs2).
  rewrite E2, !record_record. split; [reflexivity |].
  unfold selected_rooms, applied_rooms in *.
  rewrite !omap_app, S1, A1, S2, A2. now split.
Qed.

(** C4 (as the code has it): the named rooms are processed in order, one
    after the other.  As long as the processing of a room returns, the
    next one is processed; the first failure, be it in selecting the
    room, in converting the method name or in the operation itself, ends
    the handler with that error, and the rooms named after it are
    neither selected nor operated on.  Here [before] are rooms whose
    processing returns and [after], when not empty, starts with a room
    whose processing fails with [e]. *)
Theorem roomMessageDispatcher_stops_at_first_throw
    (msg opts to except method data : value) (e : exn)
    (before after : list value) (st : state) :
  Js.prop "opts" msg = Ok opts ->
  Js.prop "rooms" opts = Ok (VArr (before ++ after)) ->
  Js.prop "to" opts = Ok to ->
  Js.prop "except" opts = Ok except ->
  Js.prop "method" opts = Ok method ->
  Js.prop "data" msg = Ok data ->
  let key := Js.to_string (number_to_string H) method in
  (forall room, room ∈ before ->
     room_ending H to except key (toArray H data) room = Ok tt) ->
  (forall room, head after = Some room ->
     room_ending H to except key (toArray H data) room = Throw e) ->
  exists evs,
    roomMessageDispatcher H msg st =
      (match after with [] => Ok tt | _ :: _ => Throw e end, record evs st) /\
    selected_rooms evs = before ++ option_list (head after) /\
    applied_rooms evs =
      before ++
      List.filter (operation_reached H to except key) (option_list (head after)).
Proof.
  intros Ho Hr Hto Hex Hm Hd key Hbefore Hafter.
  unfold roomMessageDispatcher. rewrite Ho. cbv [bind lift]. rewrite Hr.
  change (toArray H (VArr (before ++ after))) with (before ++ after).
  clear Hr. revert st. induction before as [| room before IH]; intros st; simpl.
  - destruct after as [| room after]; simpl.
    + exists []. now rewrite record_nil.
    + destruct (each_room_cases msg opts room to except method data st
                  Hto Hex Hm Hd) as (evs & E & Sel & App).
      fold key in E, App. rewrite (Hafter room eq_refl) in E.
      exists evs. unfold bind. rewrite E. split; [reflexivity |].
      split; [exact Sel |]. rewrite App.
      now destruct (operation_reached H to except key room).
  - destruct (each_room_cases msg opts room to except method data st
                Hto Hex Hm Hd) as (evs1 & E1 & S1 & A1).
    fold key in E1, A1.
    assert (Hok : room_ending H to except key (toArray H data) room = Ok tt)
      by (apply Hbefore; left).
    rewrite Hok in E1.
    assert (Hreach : operation_reached H to except key room = true).
    { unfold room_ending, operation_reached in *.
      destruct (raises (room_select H room to except)); [discriminate |].
      now destruct key. }
    rewrite Hreach in A1.
    destruct (IH (fun r Hin => Hbefore r (list_elem_of_further _ _ _ Hin))
                (record evs1 st)) as (evs2 & E2 & S2 & A2).
    exists (evs1 ++ evs2). rewrite (bind_ok _ _ _ _ _ E1), E2, record_record.
    split; [reflexivity |].
    unfold selected_rooms, applied_rooms in *.
    rewrite !omap_app, S1, A1, S2, A2. now split.
Qed.

(** C5: for each of [write] and [send] that the host has,
    [wrapPrimusMethods] keeps the function found there under
    [__original] + its name, a different name, and puts a replacement in
    its place; called with any arguments, the replacement first calls
    [publish] with the arguments as data, type [primus] and options
    naming the method, then applies the kept original to the same
    arguments. *)
Theorem wrapped_method_publishes_then_calls_original
    (st : state) (method : string) (f : fn) :
  method ∈ ["write"; "send"] ->
  slots st !! method = Some f ->
  exists st',
    wrapPrimusMethods st = (Ok tt, st') /\
    slots st' !! method = Some (Wrapper method) /\
    slots st' !! ("__original" +:+ method) = Some f /\
    "__original" +:+ method <> method /\
    forall st1 depth args,
      slots st1 = slots st' ->
      call H (S depth) (Wrapper method) args st1 =
      (publish H (VArr args) (VStr "primus") (VObj [("method", VStr method)]) >>
       call H depth f args) st1.
Proof.
  intros Hin Hf.
  assert (Hcall : forall st1 depth args,
            slots st1 !! ("__original" +:+ method) = Some f ->
            call H (S depth) (Wrapper method) args st1 =
            (publish H (VArr args) (VStr "primus") (VObj [("method", VStr method)]) >>
             call H depth f args) st1).
  { intros st1 depth args Ho. simpl.
    destruct (publish_spec H (VArr args) (VStr "primus")
                (VObj [("method", VStr method)]) st1) as (evs & E & _).
    rewrite !(bind_ok _ _ _ _ _ E). cbv [bind reads].
    change (slots (record evs st1)) with (slots st1). now rewrite Ho. }
  exists (set_slots (fun m => wrapped "send" (wrapped "write" m)) st).
  split; [apply wrapPrimusMethods_slots |]. simpl.
  apply elem_of_cons in Hin as [-> | Hin];
    [| apply list_elem_of_singleton in Hin as ->].
  - destruct (wrapped_self "write" f (slots st)) as [Hw Ho]; [done | done |].
    assert (Ho' : wrapped "send" (wrapped "write" (slots st)) !! ("__original" +:+ "write")
                  = Some f) by (rewrite wrapped_other; done).
    split; [rewrite wrapped_other; done |].
    split; [exact Ho' |]. split; [done |].
    intros st1 depth args Hsl. apply Hcall. now rewrite Hsl.
  - assert (Hf' : wrapped "write" (slots st) !! "send" = Some f)
      by (rewrite wrapped_other; done).
    destruct (wrapped_self "send" f (wrapped "write" (slots st))) as [Hw Ho];
      [done | done |].
    split; [exact Hw |]. split; [exact Ho |]. split; [done |].
    intros st1 depth args Hsl. apply Hcall. now rewrite Hsl.
Qed.

(** C6: a direct message whose options name a method is replayed by
    applying the function kept under [__original] + that name, the
    host's own function when the method was wrapped once, to the
    elements of [data] in their order, and to nothing else: for an array
    they are its items (for the spec's example, [write] with
    [42, "hello"]). *)
Theorem primusMessageDispatcher_replays_original
    (msg opts data : value) (method name : string) (depth : nat) (st : state) :
  Js.prop "opts" msg = Ok opts ->
  Js.prop "method" opts = Ok (VStr method) ->
  Js.prop "data" msg = Ok data ->
  slots st !! ("__original" +:+ method) = Some (Native name) ->
  call_depth H = S depth ->
  primusMessageDispatcher H msg st =
    (log (EvNative name (toArray H data)) >>
     host_call H (native H name (toArray H data))) st /\
  (forall items, data = VArr items -> toArray H data = items).
Proof.
  intros Ho Hm Hd Hs Hdepth. split; [| now intros items ->].
  unfold primusMessageDispatcher, js_to_string. rewrite Ho, Hdepth.
  cbv [bind lift]. rewrite Hm. simpl. cbv [reads ret]. rewrite Hs, Hd.
  reflexivity.
Qed.

(** C7: a failed encoding or decoding never throws.  The error is handed
    to the host's error listeners exactly when there is at least one,
    and is dropped otherwise; either way nothing else happens: nothing is
    written to the channel, no handler runs. *)
Theorem serialization_failure_is_reported_or_dropped (st : state) :
  (forall data type opts err wire,
     let message :=
       cluster_message (id st) data type (if Js.truthy opts then opts else VObj []) in
     silent st = false ->
     encoder H message = (err, wire) ->
     Js.truthy err = true ->
     publish H data type opts st =
       (Ok tt, record (EvEncode message :: reported (error_listeners st) err) st)) /\
  (forall payload err msg,
     decoder H payload = (err, msg) ->
     Js.truthy err = true ->
     dispatchMessage H payload st =
       (Ok tt, record (EvDecode payload :: reported (error_listeners st) err) st)) /\
  (forall err,
     EvEmitError err ∈ reported (error_listeners st) err <-> 0 < error_listeners st).
Proof.
  split; [| split].
  - intros data type opts err wire message Hs Hw He. subst message.
    unfold publish, emit_if_listened.
    cbv [bind reads log update ret]. rewrite Hs, Hw, He.
    change (error_listeners (record _ st)) with (error_listeners st).
    destruct (error_listeners st); simpl; [reflexivity | now rewrite record_record].
  - intros payload err msg Hd He. unfold dispatchMessage, emit_if_listened.
    cbv [bind reads log update ret]. rewrite Hd, He.
    change (error_listeners (record _ st)) with (error_listeners st).
    destruct (error_listeners st); simpl; [reflexivity | now rewrite record_record].
  - intros err. destruct (error_listeners st); simpl.
    + split; [intros []%elem_of_nil | lia].
    + split; [lia | intros _; left].
Qed.

(** C8 (the code runs a method): a message from another node whose type
    is [initialize], which is neither known type, raises no error:
    [callDispatcher] finds the node's own [initializeMessageDispatcher]
    under the computed name and runs it, so the node subscribes again and
    registers one more message listener. *)
Theorem dispatchMessage_initialize_type_runs_a_method
    (payload : string) (st : state) (err msg sender : value) :
  decoder H payload = (err, msg) ->
  Js.truthy err = false ->
  Js.prop "type" msg = Ok (VStr "initialize") ->
  Js.prop "id" msg = Ok sender ->
  Js.strict_equals_number sender (id st) = false ->
  exists st',
    dispatchMessage H payload st = (Ok tt, st') /\
    silent st' = false /\
    message_listeners st' = S (message_listeners st) /\
    trace st' = trace st ++ [EvDecode payload; EvSubscribe (channel st); EvOnMessage].
Proof.
  intros Hd He Ht Hi Hs. unfold dispatchMessage, callDispatcher, js_to_string.
  cbv [bind reads log update ret lift]. rewrite Hd, He, Ht, Hi. simpl.
  change (id (record _ st)) with (id st). rewrite Hs. simpl.
  eexists; split; [reflexivity |]. simpl. unfold record; simpl.
  now rewrite <- !app_assoc.
Qed.

(** Any other type that names no method of the node does end in a
    TypeError, raised inside [callDispatcher]. *)
Lemma callDispatcher_no_such_method (msg type : value) (name : string) (st : state) :
  Js.prop "type" msg = Ok type ->
  Js.to_string (number_to_string H) type = Some name ->
  own_method (name +:+ "MessageDispatcher") = None ->
  callDispatcher H msg st = (Throw TypeError, set_silent true st).
Proof.
  intros Ht Hn Hm. unfold callDispatcher, js_to_string.
  cbv [bind update lift]. rewrite Ht, Hn. cbv [ret]. now rewrite Hm.
Qed.

(** C9: the listener on the sub client never looks at the channel a
    message came on: whatever the channel, it dispatches the payload, and
    so does every emission of the message event. *)
Theorem on_message_ignores_channel (c1 c2 message : string) (st : state) :
  on_message H c1 message st = on_message H c2 message st /\
  on_message H c1 message st = dispatchMessage H message st /\
  emit_message H c1 message st = emit_message H c2 message st.
Proof. repeat split. Qed.

(** C10: only an [id] strictly equal to the node's own suppresses a
    message.  A decoded message of a known type whose [id] is absent, or
    is not strictly equal to the node's, goes on to be replayed:
    [callDispatcher] runs on it, that is, its handler runs between the
    setting and the clearing of [silent]. *)
Theorem dispatchMessage_replays_other_ids
    (payload : string) (st : state) (err msg type sender : value) (d : dispatcher) :
  decoder H payload = (err, msg) ->
  Js.truthy err = false ->
  Js.prop "type" msg = Ok type ->
  (type, d) = (VStr "primus", PrimusMessageDispatcher) \/
    (type, d) = (VStr "room", RoomMessageDispatcher) ->
  Js.prop "id" msg = Ok sender ->
  sender = VUndef \/ Js.strict_equals_number sender (id st) = false ->
  dispatchMessage H payload st = callDispatcher H msg (record [EvDecode payload] st) /\
  callDispatcher H msg (record [EvDecode payload] st) =
    (update (set_silent true) >> run_dispatcher H d msg >> update (set_silent false))
      (record [EvDecode payload] st).
Proof.
  intros Hd He Ht Hk Hi Hs.
  assert (Hne : Js.strict_equals_number sender (id st) = false)
    by (destruct Hs as [-> | Hs]; [reflexivity | exact Hs]).
  split.
  - unfold dispatchMessage. cbv [bind reads log update ret lift].
    rewrite Hd, He, Ht, Hi.
    replace (Js.truthy type) with true
      by (now destruct Hk as [[= -> _] | [= -> _]]).
    simpl. change (id (record _ st)) with (id st). now rewrite Hne.
  - unfold callDispatcher, js_to_string. cbv [bind update lift]. rewrite Ht.
    now destruct Hk as [[= -> ->] | [= -> ->]].
Qed.

End Facts.

(** ** Further properties of the dispatcher *)

Lemma length_append (s t : string) :
  String.length (s +:+ t) = String.length s + String.length t.
Proof. induction s as [| a s IH]; simpl; [reflexivity | now rewrite IH]. Qed.

Lemma append_inj_r (s1 s2 t : string) : s1 +:+ t = s2 +:+ t -> s1 = s2.
Proof.
  revert s2. induction s1 as [| a s1 IH]; intros [| b s2] E.
  - reflexivity.
  - apply (f_equal String.length) in E. rewrite !length_append in E.
    simpl in E. lia.
  - apply (f_equal String.length) in E. rewrite !length_append in E.
    simpl in E. lia.
  - change (String a (s1 +:+ t) = String b (s2 +:+ t)) in E.
    injection E as -> E. f_equal. now apply IH.
Qed.

(** The names for which the computed property is a method. *)
Lemma own_method_none (name : string) :
  name ∉ ["room"; "primus"; "initialize"] ->
  own_method (name +:+ "MessageDispatcher") = None.
Proof.
  intros Hn. unfold own_method.
  destruct (String.eqb_spec (name +:+ "MessageDispatcher") "roomMessageDispatcher")
    as [E | _].
  { apply (append_inj_r name "room") in E. subst. exfalso. apply Hn. left. }
  destruct (String.eqb_spec (name +:+ "MessageDispatcher") "primusMessageDispatcher")
    as [E | _].
  { apply (append_inj_r name "primus") in E. subst. exfalso. apply Hn. right; left. }
  destruct (String.eqb_spec (name +:+ "MessageDispatcher") "initializeMessageDispatcher")
    as [E | _].
  { apply (append_inj_r name "initialize") in E. subst. exfalso. apply Hn.
    right; right; left. }
  reflexivity.
Qed.

Section Dispatch.
Variable H : host.

(** X3: a message whose type is a string other than [room], [primus] and
    [initialize] makes [callDispatcher] throw a TypeError: the computed
    property is not a method.  Nothing was called, and [silent] is left
    set. *)
Theorem callDispatcher_other_string_type_throws (msg : value) (type : string)
    (st : state) :
  Js.prop "type" msg = Ok (VStr type) ->
  type ∉ ["room"; "primus"; "initialize"] ->
  callDispatcher H msg st = (Throw TypeError, set_silent true st).
Proof.
  intros Ht Hn. unfold callDispatcher, js_to_string.
  cbv [bind update lift]. rewrite Ht. simpl. cbv [ret].
  now rewrite (own_method_none type Hn).
Qed.

(** X4: a decoded message whose [type] is absent, or is any other falsy
    value (null, false, zero, NaN, the empty string), is dropped before
    its [id] is even looked at: nothing happens after the decoding. *)
Theorem dispatchMessage_drops_falsy_type (payload : string) (st : state)
    (err msg type : value) :
  decoder H payload = (err, msg) ->
  Js.truthy err = false ->
  Js.prop "type" msg = Ok type ->
  Js.truthy type = false ->
  dispatchMessage H payload st = (Ok tt, record [EvDecode payload] st).
Proof.
  intros Hd He Ht Hf. unfold dispatchMessage.
  cbv [bind reads log update ret lift]. now rewrite Hd, He, Ht, Hf.
Qed.

(** X5: when the decoder reports no error and hands over [undefined] or
    [null], reading the type throws a TypeError out of [dispatchMessage];
    the node is as it was, [silent] included. *)
Theorem dispatchMessage_nothing_decoded_throws (payload : string) (st : state)
    (err msg : value) :
  decoder H payload = (err, msg) ->
  Js.truthy err = false ->
  msg = VUndef \/ msg = VNull ->
  dispatchMessage H payload st = (Throw TypeError, record [EvDecode payload] st).
Proof.
  intros Hd He Hm. unfold dispatchMessage.
  cbv [bind reads log update ret lift]. rewrite Hd, He.
  now destruct Hm as [-> | ->].
Qed.

(** X6: a [room] or [primus] message without [opts] throws a TypeError
    in its handler before any host code is called, and leaves [silent]
    set. *)
Theorem callDispatcher_without_opts_throws (msg type opts : value) (st : state) :
  Js.prop "type" msg = Ok type ->
  type = VStr "room" \/ type = VStr "primus" ->
  Js.prop "opts" msg = Ok opts ->
  opts = VUndef \/ opts = VNull ->
  callDispatcher H msg st = (Throw TypeError, set_silent true st).
Proof.
  intros Ht Hk Ho Hn. unfold callDispatcher, js_to_string.
  cbv [bind update lift]. rewrite Ht.
  destruct Hk as [-> | ->]; simpl;
    unfold roomMessageDispatcher, primusMessageDispatcher;
    cbv [bind lift ret]; rewrite Ho; now destruct Hn as [-> | ->].
Qed.

(** X7: a [primus] message that names a method which was not wrapped on
    this host (no [__original] slot for it) throws a TypeError; no host
    function runs, and [silent] is left set. *)
Theorem callDispatcher_unwrapped_method_throws (msg opts method : value)
    (name : string) (st : state) :
  Js.prop "type" msg = Ok (VStr "primus") ->
  Js.prop "opts" msg = Ok opts ->
  Js.prop "method" opts = Ok method ->
  Js.to_string (number_to_string H) method = Some name ->
  slots st !! ("__original" +:+ name) = None ->
  callDispatcher H msg st = (Throw TypeError, set_silent true st).
Proof.
  intros Ht Ho Hm Hn Hs. unfold callDispatcher, js_to_string.
  cbv [bind update lift]. rewrite Ht. simpl.
  unfold primusMessageDispatcher, js_to_string.
  cbv [bind lift ret reads]. rewrite Ho, Hm, Hn.
  change (slots (set_silent true st)) with (slots st). now rewrite Hs.
Qed.

(** X8: a [room] message that names no room at all is replayed as
    nothing: no host code is called and [silent] is cleared again. *)
Theorem callDispatcher_no_rooms_is_empty (msg opts : value) (st : state) :
  Js.prop "type" msg = Ok (VStr "room") ->
  Js.prop "opts" msg = Ok opts ->
  Js.prop "rooms" opts = Ok (VArr []) ->
  callDispatcher H msg st = (Ok tt, set_silent false st).
Proof.
  intros Ht Ho Hr. unfold callDispatcher, js_to_string.
  cbv [bind update lift]. rewrite Ht. simpl.
  unfold roomMessageDispatcher. cbv [bind lift ret]. rewrite Ho, Hr.
  reflexivity.
Qed.

End Dispatch.

(** ** Inbound messages publish nothing *)

Lemma mute_ret {A} (a : A) : mute (ret a).
Proof. now intros st. Qed.

Lemma mute_reads {A} (f : state -> A) : mute (reads f).
Proof. now intros st. Qed.

Lemma mute_lift {A} (r : result A) : mute (lift r).
Proof. now intros st. Qed.

Lemma mute_log (e : event) : outbound e = false -> mute (log e).
Proof.
  intros He st. cbv [log update]. simpl.
  rewrite List.filter_app. simpl. rewrite He. apply app_nil_r.
Qed.

Lemma mute_bind {A B} (m : M A) (k : A -> M B) :
  mute m -> (forall a, mute (k a)) -> mute (bind m k).
Proof.
  intros Hm Hk st. specialize (Hm st). unfold bind.
  destruct (m st) as [[a | e] st1]; simpl in *; [| exact Hm].
  now rewrite (Hk a st1).
Qed.

Lemma mute_for_each {A} (f : A -> M unit) (l : list A) :
  (forall x, mute (f x)) -> mute (for_each f l).
Proof.
  intros Hf. induction l as [| x rest IH]; simpl.
  - apply mute_ret.
  - apply mute_bind; auto.
Qed.

Section Mute.
Variable H : host.

Lemma mute_dispatchMessage (payload : string) :
  Js.truthy (decoder H payload).1 = false ->
  mute (dispatchMessage H payload).
Proof.
  intros Hd. unfold dispatchMessage.
  apply mute_bind; [now apply mute_log | intros _].
  destruct (decoder H payload) as [err msg]. simpl in Hd. rewrite Hd.
  apply mute_bind; [apply mute_lift | intros type].
  destruct (negb (Js.truthy type)); [apply mute_ret |].
  apply mute_bind; [apply mute_lift | intros sender].
  apply mute_bind; [apply mute_reads | intros self].
  destruct (Js.strict_equals_number sender self); [apply mute_ret |].
  intros st. apply callDispatcher_puts_nothing_on_channel.
Qed.

(** X2: a payload that the decoder decodes without an error never makes
    the node encode or publish: whatever the message, however many
    listeners are registered, whether or not [silent] was set before,
    and whatever the replayed host code asks the node to publish, the
    message event adds no encoding and no publication to the record of
    calls.  (A payload that fails to decode is handed to the host's
    error listeners, which are free to publish; it is not covered.) *)
Theorem inbound_messages_publish_nothing (c message : string) (st : state) :
  Js.truthy (decoder H message).1 = false ->
  List.filter outbound (trace (emit_message H c message st).2) =
  List.filter outbound (trace st).
Proof.
  intros Hd. revert st. change (mute (emit_message H c message)).
  unfold emit_message. apply mute_bind; [apply mute_reads | intros n].
  apply mute_for_each. intros _. now apply mute_dispatchMessage.
Qed.

End Mute.

(** ** Wrapping, construction and the way across the channel *)

(** X11: [wrapPrimusMethods] never fails and touches nothing but the
    slots [write], [send], [__originalwrite] and [__originalsend] of the
    host; a method the host does not have is not created, and the slot
    that would keep its original is left alone. *)
Theorem wrapPrimusMethods_touches_only_its_slots (st : state) :
  exists st',
    wrapPrimusMethods st = (Ok tt, st') /\
    st' = set_slots (fun _ => slots st') st /\
    (forall k, k ∉ ["write"; "send"; "__originalwrite"; "__originalsend"] ->
       slots st' !! k = slots st !! k) /\
    (forall method, method ∈ ["write"; "send"] ->
       slots st !! method = None ->
       slots st' !! method = None /\
       slots st' !! ("__original" +:+ method) = slots st !! ("__original" +:+ method)).
Proof.
  exists (set_slots (fun m => wrapped "send" (wrapped "write" m)) st).
  split; [apply wrapPrimusMethods_slots |]. split; [reflexivity |]. simpl. split.
  - intros k Hk. rewrite !wrapped_other; [reflexivity | | | |];
      intros ->; apply Hk; set_solver.
  - intros method Hin Hnone.
    apply elem_of_cons in Hin as [-> | Hin];
      [| apply list_elem_of_singleton in Hin as ->].
    + rewrite !(wrapped_other "send") by done.
      unfold wrapped. now rewrite Hnone.
    + assert (Hs : wrapped "write" (slots st) !! "send" = None)
        by (rewrite wrapped_other; done).
      unfold wrapped at 1 3. rewrite Hs. split; [exact Hs |].
      rewrite wrapped_other; done.
Qed.

Section Relay.
Variable H : host.

Lemma call_own_original (method : string) (args : list value) (depth : nat) :
  forall st,
    slots st !! ("__original" +:+ method) = Some (Wrapper method) ->
    exists evs,
      call H depth (Wrapper method) args st = (Throw RangeError, record evs st) /\
      natives evs = [].
Proof.
  induction depth as [| depth IH]; intros st Hs; simpl.
  - exists []. now rewrite record_nil.
  - destruct (publish_relay H (VArr args) (VStr "primus")
                (VObj [("method", VStr method)]) st) as (evs1 & E1 & R1).
    assert (N1 : natives evs1 = [])
      by (apply omap_relay; [now intros [] | exact R1]).
    rewrite (bind_ok _ _ _ _ _ E1). cbv [bind reads].
    change (slots (record evs1 st)) with (slots st). rewrite Hs.
    destruct (IH (record evs1 st) Hs) as (evs2 & E2 & N2).
    exists (evs1 ++ evs2). rewrite E2, record_record. split; [reflexivity |].
    unfold natives in *. now rewrite omap_app, N1, N2.
Qed.

(** X12: wrapping a second time loses the original for good.  The slot
    that should keep it now holds the replacement itself, which looks
    that slot up when called: every call of the method goes round until
    the stack is exhausted and ends in a RangeError, and the host's own
    function is never run. *)
Theorem second_wrapping_loses_the_original (st : state) (method : string) (f : fn) :
  method ∈ ["write"; "send"] ->
  slots st !! method = Some f ->
  exists st2,
    (wrapPrimusMethods >> wrapPrimusMethods) st = (Ok tt, st2) /\
    slots st2 !! ("__original" +:+ method) = Some (Wrapper method) /\
    forall st' depth args,
      slots st' = slots st2 ->
      exists evs,
        call H depth (Wrapper method) args st' = (Throw RangeError, record evs st') /\
        natives evs = [].
Proof.
  intros Hin Hf.
  set (once := fun m : gmap string fn => wrapped "send" (wrapped "write" m)).
  exists (set_slots (fun m => once (once m)) st).
  split.
  { rewrite (bind_ok _ _ _ _ _ (wrapPrimusMethods_slots st)).
    now rewrite wrapPrimusMethods_slots. }
  assert (Hw : once (once (slots st)) !! ("__original" +:+ method)
               = Some (Wrapper method)).
  { subst once. simpl.
    apply elem_of_cons in Hin as [-> | Hin];
      [| apply list_elem_of_singleton in Hin as ->].
    - rewrite (wrapped_other "send") by done.
      apply (wrapped_self "write" (Wrapper "write")); [| done].
      rewrite (wrapped_other "send") by done.
      now apply (wrapped_self "write" f).
    - apply (wrapped_self "send" (Wrapper "send")); [| done].
      rewrite (wrapped_other "write") by done.
      apply (wrapped_self "send" f); [| done].
      rewrite wrapped_other; done. }
  split; [exact Hw |].
  intros st' depth args Hsl. apply call_own_original. now rewrite Hsl.
Qed.


(** X14: what a node publishes comes back to it and is dropped.  When
    the decoder undoes the encoder on the message, the node's own
    [publish] followed by the delivery of the payload to this node
    encodes, publishes and decodes, and that is all: no handler runs. *)
Theorem own_publish_comes_back_and_is_dropped (data type opts : value)
    (st : state) (wire : string) (err err' : value) :
  let message :=
    cluster_message (id st) data type (if Js.truthy opts then opts else VObj []) in
  silent st = false ->
  SFeqb (id st) (id st) = true ->
  encoder H message = (err, wire) ->
  Js.truthy err = false ->
  decoder H wire = (err', message) ->
  Js.truthy err' = false ->
  (publish H data type opts >> dispatchMessage H wire) st =
    (Ok tt, record [EvEncode message; EvPublish (channel st) wire; EvDecode wire] st).
Proof.
  intros message Hs Hid He Het Hd Hdt. subst message.
  unfold publish, dispatchMessage. cbv [bind reads log update ret lift].
  rewrite Hs, He, Het, Hd, Hdt. simpl.
  destruct (Js.truthy type); simpl.
  - change (id (record _ (record _ (record _ st)))) with (id st). rewrite Hid.
    now rewrite !record_record.
  - now rewrite !record_record.
Qed.

(** X15: a call of a wrapped method on one node is run once on another.
    On the calling node the wrapper encodes a message carrying the
    arguments and the method name, publishes it and runs the original.
    On a node with another identifier that decodes this message, the
    original kept there runs with the same arguments, once, while
    [silent] is set: nothing it asks to publish goes out.  [silent] is
    cleared again exactly when that original returns. *)
Theorem wrapped_call_is_replayed_elsewhere (stA stB : state) (method nameA nameB : string)
    (args : list value) (wire : string) (err err' : value) (depthA depthB : nat) :
  let message :=
    cluster_message (id stA) (VArr args) (VStr "primus")
      (VObj [("method", VStr method)]) in
  silent stA = false ->
  slots stA !! ("__original" +:+ method) = Some (Native nameA) ->
  encoder H message = (err, wire) ->
  Js.truthy err = false ->
  decoder H wire = (err', message) ->
  Js.truthy err' = false ->
  SFeqb (id stA) (id stB) = false ->
  slots stB !! ("__original" +:+ method) = Some (Native nameB) ->
  call_depth H = S depthB ->
  (exists evs,
     call H (S (S depthA)) (Wrapper method) args stA =
       (outcome (native H nameA args),
        record ([EvEncode message; EvPublish (channel stA) wire;
                 EvNative nameA args] ++ evs) stA)) /\
  (exists stB',
     dispatchMessage H wire stB = (outcome (native H nameB args), stB') /\
     trace stB' = trace stB ++ [EvDecode wire; EvNative nameB args] /\
     silent stB' = match raises (native H nameB args) with
                   | Some _ => true
                   | None => false
                   end).
Proof.
  intros message Hs HsA He Het Hd Hdt Hid HsB Hdepth. subst message.
  unfold cluster_message in *. split.
  - simpl. unfold publish, cluster_message.
    cbv [bind reads log update ret]. rewrite Hs. simpl. rewrite He, Het.
    change (slots (record _ (record _ stA))) with (slots stA). rewrite HsA.
    match goal with
    | |- context [host_call H ?b ?s] =>
        destruct (host_call_spec H b s) as (evs & E & _)
    end.
    exists evs. rewrite E. now rewrite !record_record.
  - unfold dispatchMessage, callDispatcher, js_to_string.
    cbv [bind reads log update ret lift]. rewrite Hd, Hdt. simpl.
    change (id (record _ stB)) with (id stB). rewrite Hid.
    unfold primusMessageDispatcher, js_to_string.
    cbv [bind reads log update ret lift]. simpl.
    change (slots (set_silent true (record _ stB))) with (slots stB).
    rewrite HsB, Hdepth. simpl. cbv [bind log update].
    set (st1 := record [EvNative nameB args] _).
    destruct (host_call_spec H (native H nameB args) st1) as (evs & E & _ & Hq).
    rewrite (Hq eq_refl), record_nil in E. rewrite E. unfold outcome.
    destruct (raises (native H nameB args)); eexists; (split; [reflexivity |]);
      subst st1; simpl; rewrite <- app_assoc; now split.
Qed.

End Relay.

(** ** Setting up the clients *)

(** When every creation succeeds, [initializeClients] registers
    [pub], [sub] and [storage], in this order, each right after it was
    created and given its error forwarder. *)
Theorem initializeClients_creates_three (o : Clients.options) :
  (forall n, n < 3 -> Clients.attempt o n = None) ->
  Clients.initializeClients o =
  (Ok tt,
   {| Clients.clients := ["pub"; "sub"; "storage"];
      Clients.steps :=
        [Clients.Created "pub"; Clients.ForwardsErrors "pub";
         Clients.Created "sub"; Clients.ForwardsErrors "sub";
         Clients.Created "storage"; Clients.ForwardsErrors "storage"] |}).
Proof.
  intros Hok.
  assert (H0 := Hok 0 ltac:(lia)). assert (H1 := Hok 1 ltac:(lia)).
  assert (H2 := Hok 2 ltac:(lia)).
  unfold Clients.initializeClients, Clients.names. simpl.
  unfold Clients.createClient. destruct o as [make | create]; simpl in *;
    now rewrite H0, H1, H2.
Qed.

(** X17: when a creation fails, [initializeClients] stops there.  With a
    factory the factory's own error comes out; with settings the error
    is always the one that asks for the redis dependency, whatever went
    wrong.  The clients created before stay registered, and none is
    quit. *)
Theorem initializeClients_stops_at_first_failure (o : Clients.options)
    (n : nat) (e : value) :
  n < 3 ->
  (forall k, k < n -> Clients.attempt o k = None) ->
  Clients.attempt o n = Some e ->
  exists s,
    Clients.initializeClients o =
      (Throw match o with
             | Clients.Factory _ => Thrown e
             | Clients.Settings _ => Clients.missing_dependency
             end, s) /\
    Clients.clients s = take n Clients.names /\
    length (Clients.steps s) = 2 * n.
Proof.
  intros Hn Hok Hfail.
  unfold Clients.initializeClients, Clients.names.
  destruct n as [| [| [| n]]]; [| | | lia].
  - simpl. unfold Clients.createClient.
    destruct o as [make | create]; simpl in *; rewrite Hfail;
      eexists; repeat split.
  - assert (H0 := Hok 0 ltac:(lia)).
    simpl. unfold Clients.createClient.
    destruct o as [make | create]; simpl in *; rewrite H0, Hfail;
      eexists; repeat split.
  - assert (H0 := Hok 0 ltac:(lia)). assert (H1 := Hok 1 ltac:(lia)).
    simpl. unfold Clients.createClient.
    destruct o as [make | create]; simpl in *; rewrite H0, H1, Hfail;
      eexists; repeat split.
Qed.

(** ** The theorems at concrete inputs *)

Lemma callDispatcher_throw_keeps_silent_witness :
  let run := callDispatcher Sample.write_fails Sample.direct_write (Sample.node 0) in
  run.1 = Throw (Thrown (VStr "socket closed")) /\ silent run.2 = true.
Proof.
  split; [reflexivity |].
  apply (callDispatcher_throw_keeps_silent Sample.write_fails Sample.direct_write
           (Sample.node 0) _ (Thrown (VStr "socket closed"))).
  reflexivity.
Defined.

(** Once the guard is stuck, the node publishes nothing any more. *)
Example stuck_guard_disables_publish :
  let st := (dispatchMessage Sample.write_fails "direct" (Sample.node 0)).2 in
  silent st = true /\
  call Sample.write_fails 8 (Wrapper "write") [VStr "hi"] st =
    (Throw (Thrown (VStr "socket closed")), record [EvNative "write" [VStr "hi"]] st).
Proof. split; vm_compute; reflexivity. Qed.

Lemma publish_silent_noop_witness :
  let st := set_silent true (Sample.node 1) in
  publish Sample.sound (VArr [VStr "hi"]) (VStr "room") VUndef st = (Ok tt, st).
Proof.
  apply (publish_silent_noop Sample.sound). reflexivity.
Defined.

Lemma dispatchMessage_drops_own_echo_witness :
  dispatchMessage Sample.sound "echo" (Sample.node 1) =
  (Ok tt, record [EvDecode "echo"] (Sample.node 1)).
Proof.
  eapply (dispatchMessage_drops_own_echo Sample.sound "echo" (Sample.node 1));
    reflexivity.
Defined.

(** C4 as stated does not hold: when the operation on [lobby] throws,
    [vip], named after it, never has the operation invoked. *)
Lemma room_failure_skips_remaining_rooms :
  ~ every_named_room_is_served Sample.lobby_fails Sample.lobby_vip (Sample.node 0).
Proof.
  intros Hc.
  specialize (Hc _ [VStr "lobby"; VStr "vip"] (VStr "vip") eq_refl eq_refl).
  assert (Hin : VStr "vip" ∈ [VStr "lobby"]) by (apply Hc; right; left).
  apply list_elem_of_singleton in Hin. discriminate Hin.
Qed.

Lemma roomMessageDispatcher_stops_at_first_throw_witness :
  (exists evs,
     roomMessageDispatcher Sample.lobby_fails Sample.lobby_vip (Sample.node 0) =
       (Throw (Thrown (VStr "lobby is closed")), record evs (Sample.node 0)) /\
     selected_rooms evs = [VStr "lobby"] /\
     applied_rooms evs = [VStr "lobby"]) /\
  (exists evs,
     roomMessageDispatcher Sample.lobby_missing Sample.lobby_vip (Sample.node 0) =
       (Throw (Thrown (VStr "no such room")), record evs (Sample.node 0)) /\
     selected_rooms evs = [VStr "lobby"] /\
     applied_rooms evs = []).
Proof.
  split.
  - apply (roomMessageDispatcher_stops_at_first_throw Sample.lobby_fails
             Sample.lobby_vip
             (VObj [("rooms", VArr [VStr "lobby"; VStr "vip"]); ("method", VStr "emit")])
             VUndef VUndef (VStr "emit") (VArr [VStr "news"])
             (Thrown (VStr "lobby is closed")) [] [VStr "lobby"; VStr "vip"]
             (Sample.node 0));
      try reflexivity.
    + intros room Hin. now apply elem_of_nil in Hin.
    + intros room [= <-]. reflexivity.
  - apply (roomMessageDispatcher_stops_at_first_throw Sample.lobby_missing
             Sample.lobby_vip
             (VObj [("rooms", VArr [VStr "lobby"; VStr "vip"]); ("method", VStr "emit")])
             VUndef VUndef (VStr "emit") (VArr [VStr "news"])
             (Thrown (VStr "no such room")) [] [VStr "lobby"; VStr "vip"]
             (Sample.node 0));
      try reflexivity.
    + intros room Hin. now apply elem_of_nil in Hin.
    + intros room [= <-]. reflexivity.
Defined.

Lemma wrapped_method_publishes_then_calls_original_witness :
  exists st',
    wrapPrimusMethods Sample.before_construction = (Ok tt, st') /\
    slots st' !! "write" = Some (Wrapper "write") /\
    slots st' !! "__originalwrite" = Some (Native "write") /\
    "__originalwrite" <> "write" /\
    forall st1 depth args,
      slots st1 = slots st' ->
      call Sample.sound (S depth) (Wrapper "write") args st1 =
      (publish Sample.sound (VArr args) (VStr "primus")
         (VObj [("method", VStr "write")]) >>
       call Sample.sound depth (Native "write") args) st1.
Proof.
  apply (wrapped_method_publishes_then_calls_original Sample.sound
           Sample.before_construction "write" (Native "write")).
  - left.
  - reflexivity.
Defined.

(** A call of the wrapped [write] on the constructed node, end to end. *)
Example wrapped_write_call :
  call Sample.sound 8 (Wrapper "write") [VStr "hi"] (Sample.node 0) =
  (Ok tt,
   record
     [EvEncode (cluster_message Sample.half (VArr [VStr "hi"]) (VStr "primus")
                  (VObj [("method", VStr "write")]));
      EvPublish "primus" "wire";
      EvNative "write" [VStr "hi"]]
     (Sample.node 0)).
Proof. reflexivity. Qed.

Lemma primusMessageDispatcher_replays_original_witness :
  primusMessageDispatcher Sample.sound Sample.direct_write (Sample.node 0) =
    (log (EvNative "write" [VNum Sample.forty_two; VStr "hello"]) >>
     host_call Sample.sound
       (native Sample.sound "write" [VNum Sample.forty_two; VStr "hello"]))
      (Sample.node 0) /\
  (forall items,
     VArr [VNum Sample.forty_two; VStr "hello"] = VArr items ->
     toArray Sample.sound (VArr [VNum Sample.forty_two; VStr "hello"]) = items).
Proof.
  apply (primusMessageDispatcher_replays_original Sample.sound Sample.direct_write
           (VObj [("method", VStr "write")])
           (VArr [VNum Sample.forty_two; VStr "hello"]) "write" "write" 7
           (Sample.node 0));
    reflexivity.
Defined.

Lemma serialization_failure_is_reported_or_dropped_witness :
  publish Sample.sound VUndef (VStr "room") VUndef (Sample.node 1) =
    (Ok tt,
     record
       [EvEncode (cluster_message Sample.half VUndef (VStr "room") (VObj []));
        EvEmitError (VStr "cannot encode")]
       (Sample.node 1)) /\
  dispatchMessage Sample.sound "garbled" (Sample.node 0) =
    (Ok tt, record [EvDecode "garbled"] (Sample.node 0)).
Proof.
  split.
  - apply (proj1 (serialization_failure_is_reported_or_dropped Sample.sound
                    (Sample.node 1)) VUndef (VStr "room") VUndef
             (VStr "cannot encode") EmptyString);
      reflexivity.
  - apply (proj1 (proj2 (serialization_failure_is_reported_or_dropped Sample.sound
                           (Sample.node 0))) "garbled" (VStr "SyntaxError") VUndef);
      reflexivity.
Defined.

Lemma dispatchMessage_initialize_type_runs_a_method_witness :
  exists st',
    dispatchMessage Sample.sound "initialize" (Sample.node 0) = (Ok tt, st') /\
    silent st' = false /\
    message_listeners st' = 2 /\
    trace st' =
      trace (Sample.node 0) ++
      [EvDecode "initialize"; EvSubscribe "primus"; EvOnMessage].
Proof.
  apply (dispatchMessage_initialize_type_runs_a_method Sample.sound "initialize"
           (Sample.node 0) VUndef
           (Sample.message (VNum Sample.quarter) (VStr "initialize") (VArr []) [])
           (VNum Sample.quarter));
    reflexivity.
Defined.

(** From then on every message is dispatched twice on this node. *)
Example after_initialize_messages_are_replayed_twice :
  let st := (dispatchMessage Sample.sound "initialize" (Sample.node 0)).2 in
  emit_message Sample.sound "primus" "direct" st =
  (Ok tt,
   record
     [EvDecode "direct"; EvNative "write" [VNum Sample.forty_two; VStr "hello"];
      EvDecode "direct"; EvNative "write" [VNum Sample.forty_two; VStr "hello"]]
     st).
Proof. vm_compute; reflexivity. Qed.

(** A type that names no method, by contrast, ends in a TypeError. *)
Example foreign_type_throws :
  dispatchMessage Sample.sound "foreign" (Sample.node 0) =
  (Throw TypeError, set_silent true (record [EvDecode "foreign"] (Sample.node 0))).
Proof. vm_compute; reflexivity. Qed.

Lemma dispatchMessage_replays_other_ids_witness :
  let msg := (Sample.table "anonymous").2 in
  let st := record [EvDecode "anonymous"] (Sample.node 0) in
  dispatchMessage Sample.sound "anonymous" (Sample.node 0) =
    callDispatcher Sample.sound msg st /\
  callDispatcher Sample.sound msg st =
    (update (set_silent true) >>
     run_dispatcher Sample.sound PrimusMessageDispatcher msg >>
     update (set_silent false)) st.
Proof.
  apply (dispatchMessage_replays_other_ids Sample.sound "anonymous" (Sample.node 0)
           VUndef (Sample.table "anonymous").2 (VStr "primus") VUndef
           PrimusMessageDispatcher);
    try reflexivity; left; reflexivity.
Defined.

(** ** The further properties at concrete inputs *)

Lemma callDispatcher_return_resets_witness :
  silent (callDispatcher Sample.sound Sample.direct_write
            (set_silent true (Sample.node 0))).2 = false.
Proof.
  apply (callDispatcher_return_resets Sample.sound Sample.direct_write
           (set_silent true (Sample.node 0))).
  vm_compute; reflexivity.
Defined.

Lemma callDispatcher_other_string_type_throws_witness :
  callDispatcher Sample.sound (Sample.table "foreign").2 (Sample.node 0) =
  (Throw TypeError, set_silent true (Sample.node 0)).
Proof.
  apply (callDispatcher_other_string_type_throws Sample.sound
           (Sample.table "foreign").2 "presence" (Sample.node 0)).
  - vm_compute; reflexivity.
  - intros Hin. repeat (apply elem_of_cons in Hin as [Hin | Hin]; [discriminate |]).
    now apply elem_of_nil in Hin.
Defined.

Lemma dispatchMessage_drops_falsy_type_witness :
  dispatchMessage Sample.sound "untyped" (Sample.node 0) =
  (Ok tt, record [EvDecode "untyped"] (Sample.node 0)).
Proof.
  eapply (dispatchMessage_drops_falsy_type Sample.sound "untyped" (Sample.node 0));
    vm_compute; reflexivity.
Defined.

Lemma dispatchMessage_nothing_decoded_throws_witness :
  dispatchMessage Sample.decodes_null "null" (Sample.node 0) =
  (Throw TypeError, record [EvDecode "null"] (Sample.node 0)).
Proof.
  apply (dispatchMessage_nothing_decoded_throws Sample.decodes_null "null"
           (Sample.node 0) VUndef VNull).
  - vm_compute; reflexivity.
  - vm_compute; reflexivity.
  - right. reflexivity.
Defined.

Lemma callDispatcher_without_opts_throws_witness :
  callDispatcher Sample.sound Sample.without_opts (Sample.node 0) =
  (Throw TypeError, set_silent true (Sample.node 0)).
Proof.
  apply (callDispatcher_without_opts_throws Sample.sound Sample.without_opts
           (VStr "room") VUndef (Sample.node 0)).
  - vm_compute; reflexivity.
  - left. reflexivity.
  - vm_compute; reflexivity.
  - left. reflexivity.
Defined.

Lemma callDispatcher_unwrapped_method_throws_witness :
  callDispatcher Sample.sound Sample.to_send (Sample.node 0) =
  (Throw TypeError, set_silent true (Sample.node 0)).
Proof.
  apply (callDispatcher_unwrapped_method_throws Sample.sound Sample.to_send
           (VObj [("method", VStr "send")]) (VStr "send") "send" (Sample.node 0));
    vm_compute; reflexivity.
Defined.

Lemma callDispatcher_no_rooms_is_empty_witness :
  callDispatcher Sample.sound Sample.no_rooms (Sample.node 0) =
  (Ok tt, set_silent false (Sample.node 0)).
Proof.
  apply (callDispatcher_no_rooms_is_empty Sample.sound Sample.no_rooms
           (VObj [("rooms", VArr []); ("method", VStr "emit")]) (Sample.node 0));
    vm_compute; reflexivity.
Defined.

Lemma second_wrapping_loses_the_original_witness :
  exists st2,
    (wrapPrimusMethods >> wrapPrimusMethods) Sample.before_construction = (Ok tt, st2) /\
    slots st2 !! "__originalwrite" = Some (Wrapper "write") /\
    forall st' depth args,
      slots st' = slots st2 ->
      exists evs,
        call Sample.sound depth (Wrapper "write") args st' =
          (Throw RangeError, record evs st') /\
        natives evs = [].
Proof.
  apply (second_wrapping_loses_the_original Sample.sound Sample.before_construction
           "write" (Native "write")).
  - left.
  - vm_compute; reflexivity.
Defined.


Lemma own_publish_comes_back_and_is_dropped_witness :
  (publish Sample.paired (VArr [VStr "hi"]) (VStr "primus")
     (VObj [("method", VStr "write")]) >>
   dispatchMessage Sample.paired "hi on the wire") (Sample.node 0) =
  (Ok tt,
   record
     [EvEncode Sample.hi_message; EvPublish "primus" "hi on the wire";
      EvDecode "hi on the wire"]
     (Sample.node 0)).
Proof.
  apply (own_publish_comes_back_and_is_dropped Sample.paired (VArr [VStr "hi"])
           (VStr "primus") (VObj [("method", VStr "write")]) (Sample.node 0)
           "hi on the wire" VUndef VUndef);
    vm_compute; reflexivity.
Defined.

Lemma wrapped_call_is_replayed_elsewhere_witness :
  (exists evs,
     call Sample.paired 2 (Wrapper "write") [VStr "hi"] (Sample.node 0) =
       (Ok tt,
        record ([EvEncode Sample.hi_message; EvPublish "primus" "hi on the wire";
                 EvNative "write" [VStr "hi"]] ++ evs) (Sample.node 0))) /\
  (exists stB',
     dispatchMessage Sample.paired "hi on the wire" Sample.other_node = (Ok tt, stB') /\
     trace stB' =
       trace Sample.other_node ++
       [EvDecode "hi on the wire"; EvNative "write" [VStr "hi"]] /\
     silent stB' = false).
Proof.
  apply (wrapped_call_is_replayed_elsewhere Sample.paired (Sample.node 0)
           Sample.other_node "write" "write" "write" [VStr "hi"] "hi on the wire"
           VUndef VUndef 0 7);
    vm_compute; reflexivity.
Defined.

Lemma initializeClients_creates_three_witness :
  (Clients.initializeClients (Clients.Settings (fun _ => None))).1 = Ok tt.
Proof.
  rewrite (initializeClients_creates_three (Clients.Settings (fun _ => None)));
    vm_compute; reflexivity.
Defined.

Lemma initializeClients_stops_at_first_failure_witness :
  (exists s,
     Clients.initializeClients Sample.second_fails =
       (Throw Clients.missing_dependency, s) /\
     Clients.clients s = ["pub"] /\ length (Clients.steps s) = 2) /\
  (exists s,
     Clients.initializeClients Sample.factory_fails =
       (Throw (Thrown (VStr "ECONNREFUSED")), s) /\
     Clients.clients s = ["pub"] /\ length (Clients.steps s) = 2).
Proof.
  split.
  - apply (initializeClients_stops_at_first_failure Sample.second_fails 1
             (VStr "ECONNREFUSED")); [lia | | vm_compute; reflexivity].
    intros [| k] Hk; [reflexivity | lia].
  - apply (initializeClients_stops_at_first_failure Sample.factory_fails 1
             (VStr "ECONNREFUSED")); [lia | | vm_compute; reflexivity].
    intros [| k] Hk; [reflexivity | lia].
Defined.

Lemma inbound_messages_publish_nothing_witness :
  List.filter outbound (trace (emit_message Sample.sound "primus" "direct"
                                 (Sample.node 0)).2) =
  List.filter outbound (trace (Sample.node 0)).
Proof.
  apply (inbound_messages_publish_nothing Sample.sound "primus" "direct" (Sample.node 0)).
  vm_compute; reflexivity.
Defined.
